(** * The items service stack (src/cdk/index.ts)

    A shallow embedding of the infrastructure declaration: the table, the
    five Node.js functions, the grants, the REST API route tree and the
    preflight (OPTIONS) entries.  The declaration is construct-building code
    that mutates a construct tree and may throw, so it is modelled in a small
    state-and-exception monad over the stack under construction. *)

From Stdlib Require Import Ascii String.
From stdpp Require Import base strings gmap list fin_maps.

Open Scope string_scope.
Open Scope list_scope.

(* ===================================================================== *)
(** * Paths ([path.join]) *)
(* ===================================================================== *)

(** An absolute path is the list of its segments below the root. *)
Abbreviation path := (list string).

(** One step of path normalisation: [.] and the empty segment are dropped,
    [..] removes the segment before it (and stays at the root when there is
    none), any other segment is kept.  The stack holds the kept segments,
    innermost first. *)
Definition normalize_step (stack : path) (seg : string) : path :=
  if decide (seg = "") then stack
  else if decide (seg = ".") then stack
  else if decide (seg = "..") then tail stack
  else seg :: stack.

Definition normalize (p : path) : path :=
  rev (fold_left normalize_step p []).

(** [join(a, b, ...)]: the pieces are put one after the other and the
    result is normalised. *)
Definition join (pieces : list path) : path :=
  normalize (concat pieces).

(** How a path prints. *)
Definition render (p : path) : string :=
  "/" +:+ String.concat "/" p.

(** A segment that names a file or a directory. *)
Definition regularSegment (seg : string) : Prop :=
  seg ≠ "" ∧ seg ≠ "." ∧ seg ≠ "..".

(** The entry file of a function, seen from the directory of the source
    file: up one level, then into [lambdas]. *)
Definition lambdaEntry (dirname : path) (file : string) : path :=
  normalize (dirname ++ [".."]) ++ ["lambdas"; file].

(* ===================================================================== *)
(** * Descriptors *)
(* ===================================================================== *)

(** ** aws-dynamodb *)

Inductive AttributeType := BINARY | NUMBER | STRING.
Inductive RemovalPolicy := DESTROY | RETAIN | SNAPSHOT.

Record Attribute := {
  name : string;
  type : AttributeType;
}.

Record Table := {
  tableId : string;
  partitionKey : Attribute;
  tableName : string;
  removalPolicy : RemovalPolicy;
}.

(** ** aws-lambda, aws-lambda-nodejs *)

Inductive Runtime := NODEJS_16_X | NODEJS_18_X | NODEJS_20_X.

Record BundlingOptions := {
  externalModules : list string;
}.

(** Every property of [NodejsFunctionProps] is optional. *)
Record NodejsFunctionProps := {
  entry : option path;
  bundling : option BundlingOptions;
  environment : option (gmap string string);
  runtime : option Runtime;
}.

(** Object spread, [{ ...a, ...b }]: a property of [b] replaces the one of
    [a]; a property [b] does not have is taken from [a]. *)
Definition spread (a b : NodejsFunctionProps) : NodejsFunctionProps :=
  {| entry := from_option Some a.(entry) b.(entry);
     bundling := from_option Some a.(bundling) b.(bundling);
     environment := from_option Some a.(environment) b.(environment);
     runtime := from_option Some a.(runtime) b.(runtime) |}.

Definition entryOnly (e : path) : NodejsFunctionProps :=
  {| entry := Some e; bundling := None; environment := None; runtime := None |}.

Record NodejsFunction := {
  functionId : string;
  functionProps : NodejsFunctionProps;
}.

(** ** Grants *)

Inductive AccessLevel := ReadData | WriteData | ReadWriteData | FullAccess.

Record Grant := {
  grantee : string;      (* construct id of the function *)
  onTable : string;      (* construct id of the table *)
  access : AccessLevel;
}.

(** ** aws-apigateway *)

Inductive AuthorizationType := NONE | IAM | CUSTOM | COGNITO.
Inductive PassthroughBehavior := WHEN_NO_MATCH | NEVER | WHEN_NO_TEMPLATES.

Record IntegrationResponse := {
  statusCode : string;
  responseParameters : gmap string string;
}.

Record IntegrationOptions := {
  integrationResponses : list IntegrationResponse;
  passthroughBehavior : option PassthroughBehavior;
  requestTemplates : gmap string string;
}.

Inductive Integration :=
  | LambdaIntegration (handler : string)   (* construct id of the function *)
  | MockIntegration (opts : IntegrationOptions).

Record MethodResponse := {
  mr_statusCode : string;
  mr_responseParameters : gmap string bool;
}.

Record MethodOptions := {
  authorizationType : option AuthorizationType;
  methodResponses : option (list MethodResponse);
}.

Definition noOptions : MethodOptions :=
  {| authorizationType := None; methodResponses := None |}.

Definition spreadOptions (a b : MethodOptions) : MethodOptions :=
  {| authorizationType := from_option Some a.(authorizationType) b.(authorizationType);
     methodResponses := from_option Some a.(methodResponses) b.(methodResponses) |}.

Record Method := {
  httpMethod : string;
  integration : Integration;
  options : MethodOptions;
}.

(** A resource is named by the API it belongs to and its path in it. *)
Abbreviation IResource := (string * string)%type.

Record Resource := {
  pathPart : string;
  parentResource : option IResource;
  methods : list Method;          (* in the order they were added *)
}.

Record RestApi := {
  apiId : string;
  restApiName : string;
  root : IResource;
}.

(* ===================================================================== *)
(** * The stack under construction *)
(* ===================================================================== *)

Record Stack := {
  stackId : string;
  children : gset string;         (* construct ids taken in the stack's scope *)
  tables : list Table;
  functions : list NodejsFunction;
  grants : list Grant;
  apis : list RestApi;
  resources : gmap (string * string) Resource;
}.

Definition emptyStack (id : string) : Stack :=
  {| stackId := id; children := ∅; tables := []; functions := [];
     grants := []; apis := []; resources := ∅ |}.

Inductive Error :=
  | DuplicateConstruct (scope id : string)
  | UnknownResource (r : IResource).

(** A computation reads and changes the stack and either returns or throws;
    what it changed before it threw stays changed. *)
Definition M (A : Type) : Type := Stack → (Error + A) * Stack.

Definition ret {A} (a : A) : M A := λ s, (inr a, s).
Definition throw {A} (e : Error) : M A := λ s, (inl e, s).
Definition bind {A B} (m : M A) (k : A → M B) : M B :=
  λ s, match m s with
       | (inr a, s') => k a s'
       | (inl e, s') => (inl e, s')
       end.
Definition get : M Stack := λ s, (inr s, s).
Definition put (s : Stack) : M unit := λ _, (inr tt, s).

Notation "'let*' x ':=' m 'in' k" := (bind m (λ x, k))
  (at level 10, x pattern, m at level 100, k at level 200).
Notation "m ';;' k" := (bind m (λ _, k))
  (at level 100, k at level 200, right associativity).

(** The stack a call leaves behind, whether it returned or threw. *)
Definition after {A} (m : M A) (s : Stack) : Stack := (m s).2.
Definition outcome {A} (m : M A) (s : Stack) : Error + A := (m s).1.

(** Every construct is added to its scope under an id that must be free
    there. *)
Definition addChild (id : string) : M unit :=
  let* s := get in
  if decide (id ∈ s.(children)) then throw (DuplicateConstruct s.(stackId) id)
  else put {| stackId := s.(stackId); children := {[id]} ∪ s.(children);
              tables := s.(tables); functions := s.(functions);
              grants := s.(grants); apis := s.(apis);
              resources := s.(resources) |}.

(** The stack with its resources replaced. *)
Definition withResources (s : Stack) (rs : gmap (string * string) Resource)
    : Stack :=
  {| stackId := s.(stackId); children := s.(children);
     tables := s.(tables); functions := s.(functions);
     grants := s.(grants); apis := s.(apis); resources := rs |}.

Definition setResources (rs : gmap (string * string) Resource) : M unit :=
  let* s := get in put (withResources s rs).

(** [new Table(this, id, props)] *)
Definition new_Table (id : string) (pk : Attribute) (tname : string)
    (rp : RemovalPolicy) : M Table :=
  addChild id ;;
  let t := {| tableId := id; partitionKey := pk; tableName := tname;
              removalPolicy := rp |} in
  let* s := get in
  put {| stackId := s.(stackId); children := s.(children);
         tables := s.(tables) ++ [t]; functions := s.(functions);
         grants := s.(grants); apis := s.(apis);
         resources := s.(resources) |} ;;
  ret t.

(** [new NodejsFunction(this, id, props)] *)
Definition new_NodejsFunction (id : string) (props : NodejsFunctionProps)
    : M NodejsFunction :=
  addChild id ;;
  let f := {| functionId := id; functionProps := props |} in
  let* s := get in
  put {| stackId := s.(stackId); children := s.(children);
         tables := s.(tables); functions := s.(functions) ++ [f];
         grants := s.(grants); apis := s.(apis);
         resources := s.(resources) |} ;;
  ret f.

(** [table.grantReadWriteData(fn)] *)
Definition grantReadWriteData (t : Table) (f : NodejsFunction) : M unit :=
  let* s := get in
  put {| stackId := s.(stackId); children := s.(children);
         tables := s.(tables); functions := s.(functions);
         grants := s.(grants) ++ [ {| grantee := f.(functionId);
                                      onTable := t.(tableId);
                                      access := ReadWriteData |} ];
         apis := s.(apis); resources := s.(resources) |}.

(** [new LambdaIntegration(fn)] *)
Definition new_LambdaIntegration (f : NodejsFunction) : Integration :=
  LambdaIntegration f.(functionId).

(** [new RestApi(this, id, { restApiName })]: the API comes with its root
    resource, which has no method. *)
Definition new_RestApi (id : string) (rname : string) : M RestApi :=
  addChild id ;;
  let a := {| apiId := id; restApiName := rname; root := (id, "/") |} in
  let* s := get in
  put {| stackId := s.(stackId); children := s.(children);
         tables := s.(tables); functions := s.(functions);
         grants := s.(grants); apis := s.(apis) ++ [a];
         resources := <[(id, "/") :=
                          {| pathPart := ""; parentResource := None;
                             methods := [] |}]> s.(resources) |} ;;
  ret a.

Definition endsWithSlash (p : string) : bool :=
  match String.rev p with
  | String c _ => bool_decide (c = "/"%char)
  | EmptyString => false
  end.

Definition childPath (parent part : string) : string :=
  if endsWithSlash parent then parent +:+ part else parent +:+ "/" +:+ part.

(** [parent.addResource(pathPart)]: a child construct of [parent] whose id
    is the path part. *)
Definition addResource (parent : IResource) (part : string) : M IResource :=
  let* s := get in
  match s.(resources) !! parent with
  | None => throw (UnknownResource parent)
  | Some _ =>
      let r := (parent.1, childPath parent.2 part) in
      match s.(resources) !! r with
      | Some _ => throw (DuplicateConstruct parent.2 part)
      | None =>
          setResources (<[r := {| pathPart := part;
                                  parentResource := Some parent;
                                  methods := [] |}]> s.(resources)) ;;
          ret r
      end
  end.

Definition hasMethod (verb : string) (r : Resource) : bool :=
  bool_decide (verb ∈ httpMethod <$> r.(methods)).

(** The structural effect of adding a method: one more entry, at the end. *)
Definition attachMethod (m : Method) (r : Resource) : Resource :=
  {| pathPart := r.(pathPart); parentResource := r.(parentResource);
     methods := r.(methods) ++ [m] |}.

(** [resource.addMethod(verb, integration, options)]: a child construct of
    the resource whose id is the verb, so a verb can be added once.  The
    verbs this file passes are the standard ones in upper case, for which
    the construct id and the HTTP method of the entry are the same string
    and no child resource has that id; what the library does with other
    verbs, and the deployment of the API that every added method also
    feeds, are outside this model. *)
Definition addMethod (h : IResource) (verb : string) (i : Integration)
    (o : MethodOptions) : M unit :=
  let* s := get in
  match s.(resources) !! h with
  | None => throw (UnknownResource h)
  | Some r =>
      if hasMethod verb r then throw (DuplicateConstruct h.2 verb)
      else setResources
             (<[h := attachMethod {| httpMethod := verb; integration := i;
                                     options := o |} r]> s.(resources))
  end.

(* ===================================================================== *)
(** * The declaration (src/cdk/index.ts) *)
(* ===================================================================== *)

(** The double-quote character, for the one literal that contains it. *)
Definition dquote : string := String "034"%char EmptyString.

Definition corsIntegrationParameters : gmap string string :=
  <["method.response.header.Access-Control-Allow-Headers" :=
      "'Content-Type,X-Amz-Date,Authorization,X-Api-Key,X-Amz-Security-Token,X-Amz-User-Agent'"]>
  (<["method.response.header.Access-Control-Allow-Origin" := "'*'"]>
  (<["method.response.header.Access-Control-Allow-Credentials" := "'false'"]>
  (<["method.response.header.Access-Control-Allow-Methods" :=
      "'OPTIONS,GET,PUT,POST,DELETE'"]> ∅))).

Definition corsMethodParameters : gmap string bool :=
  <["method.response.header.Access-Control-Allow-Headers" := true]>
  (<["method.response.header.Access-Control-Allow-Methods" := true]>
  (<["method.response.header.Access-Control-Allow-Credentials" := true]>
  (<["method.response.header.Access-Control-Allow-Origin" := true]> ∅))).

Definition corsIntegration : Integration :=
  MockIntegration
    {| integrationResponses :=
         [ {| statusCode := "200";
              responseParameters := corsIntegrationParameters |} ];
       passthroughBehavior := Some NEVER;
       requestTemplates :=
         <["application/json" :=
             "{" +:+ dquote +:+ "statusCode" +:+ dquote +:+ ": 200}"]> ∅ |}.

Definition corsMethodOptions : MethodOptions :=
  {| authorizationType := None;
     methodResponses :=
       Some [ {| mr_statusCode := "200";
                 mr_responseParameters := corsMethodParameters |} ] |}.

(** [addCorsOptions(apiResource)] *)
Definition addCorsOptions (apiResource : IResource) : M unit :=
  addMethod apiResource "OPTIONS" corsIntegration corsMethodOptions.

Definition nodeJsFunctionProps (dynamoTable : Table) : NodejsFunctionProps :=
  {| entry := None;
     bundling := Some {| externalModules := ["aws-sdk"] |};
     environment :=
       Some (<["PRIMARY_KEY" := "id"]>
             (<["TABLE_NAME" := dynamoTable.(tableName)]> ∅));
     runtime := Some NODEJS_20_X |}.

Definition methodOption : MethodOptions :=
  {| authorizationType := Some NONE; methodResponses := None |}.

(** The body of the constructor, after [super(app, id)].  [dirname] is the
    directory of the source file ([__dirname]). *)
Definition constructorBody (dirname : path) : M unit :=
  let* dynamoTable :=
    new_Table "items" {| name := "id"; type := STRING |} "items" DESTROY in
  let props := nodeJsFunctionProps dynamoTable in
  let* getOneLambda :=
    new_NodejsFunction "getOneItemFunction"
      (spread (entryOnly (join [dirname; [".."]; ["lambdas"]; ["get-one.ts"]])) props) in
  let* getAllLambda :=
    new_NodejsFunction "getAllItemsFunction"
      (spread (entryOnly (join [dirname; [".."]; ["lambdas"]; ["get-all.ts"]])) props) in
  let* createOneLambda :=
    new_NodejsFunction "createItemFunction"
      (spread (entryOnly (join [dirname; [".."]; ["lambdas"]; ["create.ts"]])) props) in
  let* updateOneLambda :=
    new_NodejsFunction "updateItemFunction"
      (spread (entryOnly (join [dirname; [".."]; ["lambdas"]; ["update-one.ts"]])) props) in
  let* deleteOneLambda :=
    new_NodejsFunction "deleteItemFunction"
      (spread (entryOnly (join [dirname; [".."]; ["lambdas"]; ["delete-one.ts"]])) props) in
  grantReadWriteData dynamoTable getAllLambda ;;
  grantReadWriteData dynamoTable getOneLambda ;;
  grantReadWriteData dynamoTable createOneLambda ;;
  grantReadWriteData dynamoTable updateOneLambda ;;
  grantReadWriteData dynamoTable deleteOneLambda ;;
  let getAllIntegration := new_LambdaIntegration getAllLambda in
  let createOneIntegration := new_LambdaIntegration createOneLambda in
  let getOneIntegration := new_LambdaIntegration getOneLambda in
  let updateOneIntegration := new_LambdaIntegration updateOneLambda in
  let deleteOneIntegration := new_LambdaIntegration deleteOneLambda in
  let* api := new_RestApi "itemsApi" "Items Service" in
  let* items := addResource api.(root) "items" in
  addMethod items "GET" getAllIntegration (spreadOptions noOptions methodOption) ;;
  addMethod items "POST" createOneIntegration (spreadOptions noOptions methodOption) ;;
  addCorsOptions items ;;
  let* singleItem := addResource items "{id}" in
  addMethod singleItem "GET" getOneIntegration (spreadOptions noOptions methodOption) ;;
  addMethod singleItem "PUT" updateOneIntegration (spreadOptions noOptions methodOption) ;;
  addMethod singleItem "DELETE" deleteOneIntegration (spreadOptions noOptions methodOption) ;;
  addCorsOptions singleItem.

(** [new ApiLambdaCrudDynamoDBStack(app, id)]: whether the constructor
    returned, and the stack it built. *)
Definition ApiLambdaCrudDynamoDBStack (dirname : path) (id : string)
    : (Error + unit) * Stack :=
  constructorBody dirname (emptyStack id).

(** The stack the program synthesises (the last three lines of the file). *)
Definition synth (dirname : path) : Stack :=
  (ApiLambdaCrudDynamoDBStack dirname "ApiLambdaCrudDynamoDBExample").2.

(* ===================================================================== *)
(** * Observations on a built stack *)
(* ===================================================================== *)

(** The method a resource has for a verb (the first one, should there be
    several). *)
Definition lookupMethod (verb : string) (r : Resource) : option Method :=
  List.find (λ m, bool_decide (m.(httpMethod) = verb)) r.(methods).

Definition isPreflight (m : Method) : bool :=
  bool_decide (m.(httpMethod) = "OPTIONS").

(** A resource carries real methods when one of its methods is not the
    preflight one. *)
Definition hasRealMethods (r : Resource) : bool :=
  existsb (λ m, negb (isPreflight m)) r.(methods).

(** All method entries of the stack, resource by resource. *)
Definition allMethods (s : Stack) : list (IResource * Method) :=
  '(h, r) ← map_to_list s.(resources); (λ m, (h, m)) <$> r.(methods).

(** The resources that have at least one method. *)
Definition routeNodes (s : Stack) : gset (string * string) :=
  dom (filter (λ hr, hr.2.(methods) ≠ []) s.(resources)).

(** The authorization type a method ends up with: its own, else the one of
    the default method options, else [NONE].  The API here is declared
    without default method options. *)
Definition effectiveAuthorization (defaults : option AuthorizationType)
    (m : Method) : AuthorizationType :=
  default (default NONE defaults) m.(options).(authorizationType).

(** The response contract of a preflight entry: the status and the header
    values the mock integration answers with, and the headers the method
    response declares. *)
Record Contract := {
  status : string;
  headerValues : gmap string string;
  declaredStatus : string;
  declaredHeaders : gset string;
}.

Definition contractOf (m : Method) : option Contract :=
  match m.(integration), m.(options).(methodResponses) with
  | MockIntegration o, Some [mr] =>
      match o.(integrationResponses) with
      | [ir] => Some {| status := ir.(statusCode);
                        headerValues := ir.(responseParameters);
                        declaredStatus := mr.(mr_statusCode);
                        declaredHeaders := dom mr.(mr_responseParameters) |}
      | _ => None
      end
  | _, _ => None
  end.

Definition preflightContract (s : Stack) (h : IResource) : option Contract :=
  r ← s.(resources) !! h; m ← lookupMethod "OPTIONS" r; contractOf m.

Definition hdr (n : string) : string := "method.response.header." +:+ n.

Definition corsHeaders : gset string :=
  {[ hdr "Access-Control-Allow-Headers"; hdr "Access-Control-Allow-Methods";
     hdr "Access-Control-Allow-Origin"; hdr "Access-Control-Allow-Credentials" ]}.

(** The verbs a preflight answer advertises: the header value is a quoted,
    comma-separated list. *)
Fixpoint splitOn (sep : ascii) (s : string) : list string :=
  match s with
  | EmptyString => [EmptyString]
  | String c rest =>
      if decide (c = sep) then EmptyString :: splitOn sep rest
      else match splitOn sep rest with
           | w :: ws => String c w :: ws
           | [] => [String c EmptyString]
           end
  end.

Definition unquote (s : string) : string :=
  match s with
  | String "'" rest =>
      match String.rev rest with
      | String "'" inner => String.rev inner
      | _ => s
      end
  | _ => s
  end.

(** The value of the Access-Control-Allow-Methods header of a resource's
    preflight answer. *)
Definition allowMethodsValue (s : Stack) (h : IResource) : option string :=
  c ← preflightContract s h;
  c.(headerValues) !! hdr "Access-Control-Allow-Methods".

Definition advertisedVerbs (s : Stack) (h : IResource) : list string :=
  match allowMethodsValue s h with
  | Some v => splitOn ","%char (unquote v)
  | None => []
  end.

(** The function a verb of a resource is bound to, through its Lambda
    integration. *)
Definition boundFunction (s : Stack) (h : IResource) (verb : string)
    : option NodejsFunction :=
  r ← s.(resources) !! h;
  m ← lookupMethod verb r;
  match m.(integration) with
  | LambdaIntegration fid =>
      List.find (λ f, bool_decide (f.(functionId) = fid)) s.(functions)
  | MockIntegration _ => None
  end.

Definition verbsOf (s : Stack) (h : IResource) : list string :=
  match s.(resources) !! h with
  | Some r => httpMethod <$> r.(methods)
  | None => []
  end.

Definition grantsOf (s : Stack) (f : NodejsFunction) : list Grant :=
  filter (λ g, g.(grantee) = f.(functionId)) s.(grants).

(** The counts of a descriptor graph: tables, functions, grants, method
    entries, and resources that have methods. *)
Definition descriptorCounts (s : Stack) : nat * nat * nat * nat * nat :=
  (length s.(tables), length s.(functions), length s.(grants),
   length (allMethods s), size (routeNodes s)).

(* ===================================================================== *)
(** * What the constructor is expected to declare *)
(* ===================================================================== *)

(** The contract [addCorsOptions] declares. *)
Definition corsContract : Contract :=
  {| status := "200"; headerValues := corsIntegrationParameters;
     declaredStatus := "200"; declaredHeaders := dom corsMethodParameters |}.

Definition corsMethod : Method :=
  {| httpMethod := "OPTIONS"; integration := corsIntegration;
     options := corsMethodOptions |}.

(** The table the constructor declares. *)
Definition itemsTable : Table :=
  {| tableId := "items"; partitionKey := {| name := "id"; type := STRING |};
     tableName := "items"; removalPolicy := DESTROY |}.

(** The construct id and the entry file of the functions, in the order the
    constructor declares them. *)
Definition lambdaFiles : list (string * string) :=
  [ ("getOneItemFunction", "get-one.ts");
    ("getAllItemsFunction", "get-all.ts");
    ("createItemFunction", "create.ts");
    ("updateItemFunction", "update-one.ts");
    ("deleteItemFunction", "delete-one.ts") ].

Definition lambdaOf (dirname : path) (p : string * string) : NodejsFunction :=
  {| functionId := p.1;
     functionProps :=
       spread (entryOnly (join [dirname; [".."]; ["lambdas"]; [p.2]]))
              (nodeJsFunctionProps itemsTable) |}.

Definition itemsNode : IResource := ("itemsApi", "/items").
Definition singleItemNode : IResource := ("itemsApi", "/items/{id}").

(** The stack the constructor leaves behind. *)
Definition built (dirname : path) (id : string) : Stack :=
  (ApiLambdaCrudDynamoDBStack dirname id).2.

(** A verb of a resource is routed to the declared function with the given
    construct id and entry file. *)
Definition routesTo (s : Stack) (h : IResource) (verb fid : string)
    (e : path) : Prop :=
  ∃ f, boundFunction s h verb = Some f ∧ f ∈ s.(functions)
       ∧ f.(functionId) = fid ∧ f.(functionProps).(entry) = Some e.

(** A checkout of the repository under /srv/app: the source file is in
    /srv/app/cdk. *)
Definition exampleDir : path := ["srv"; "app"; "cdk"].

Definition exampleStack : Stack := built exampleDir "ApiLambdaCrudDynamoDBExample".

Definition itemsResource : Resource :=
  {| pathPart := "items"; parentResource := Some ("itemsApi", "/");
     methods :=
       [ {| httpMethod := "GET";
            integration := LambdaIntegration "getAllItemsFunction";
            options := methodOption |};
         {| httpMethod := "POST";
            integration := LambdaIntegration "createItemFunction";
            options := methodOption |};
         corsMethod ] |}.

(** A stack that has the API and nothing on its root yet. *)
Definition exampleApiStack : Stack :=
  after (new_RestApi "itemsApi" "Items Service") (emptyStack "Example").

(** A stack that has the API and the /items resource, neither with a
    method yet. *)
Definition exampleTwoNodeStack : Stack :=
  after (addResource ("itemsApi", "/") "items") exampleApiStack.

(** The built stack with one more resource, /items/{id}/notes, that has a
    GET method routed to the read-one function and no preflight entry
    yet. *)
Definition notesNode : IResource := ("itemsApi", "/items/{id}/notes").

Definition exampleNotesStack : Stack :=
  after (let* notes := addResource singleItemNode "notes" in
         addMethod notes "GET" (LambdaIntegration "getOneItemFunction")
                   methodOption)
        exampleStack.

Definition notesResource : Resource :=
  {| pathPart := "notes"; parentResource := Some singleItemNode;
     methods :=
       [ {| httpMethod := "GET";
            integration := LambdaIntegration "getOneItemFunction";
            options := methodOption |} ] |}.

(* ===================================================================== *)
(** * Well-formedness of a declared route tree *)
(* ===================================================================== *)

(** An integration response is declared when some method response has its
    status code and lists every header it sets. *)
Definition declaresResponse (mrs : list MethodResponse)
    (ir : IntegrationResponse) : bool :=
  existsb (λ mr, bool_decide (mr.(mr_statusCode) = ir.(statusCode))
                 && bool_decide (dom ir.(responseParameters)
                                 ⊆ dom mr.(mr_responseParameters)))
          mrs.

(** Every response a mock integration answers with is declared by the
    method it is attached to. *)
Definition responsesConsistent (m : Method) : bool :=
  match m.(integration) with
  | MockIntegration o =>
      forallb (declaresResponse (default [] m.(options).(methodResponses)))
              o.(integrationResponses)
  | LambdaIntegration _ => true
  end.

(** A resource is complete when it has a preflight entry or no real method
    to ask about. *)
Definition nodeComplete (r : Resource) : bool :=
  implb (hasRealMethods r) (hasMethod "OPTIONS" r).

Definition preflightComplete (s : Stack) : Prop :=
  map_Forall (λ _ r, nodeComplete r = true) s.(resources).

(** The functions the methods of a stack hand requests to, one per Lambda
    integration. *)
Definition handlers (s : Stack) : list string :=
  omap (λ hm : IResource * Method,
          match hm.2.(integration) with
          | LambdaIntegration fid => Some fid
          | MockIntegration _ => None
          end)
       (allMethods s).

(** A resource hangs where its name says: the root is at [/], any other
    resource is under a resource of the same API that exists, at that
    resource's path extended by its own path part. *)
Definition wellRooted (s : Stack) (h : IResource) (r : Resource) : Prop :=
  match r.(parentResource) with
  | None => h.2 = "/"
  | Some p => is_Some (s.(resources) !! p)
              ∧ h = (p.1, childPath p.2 r.(pathPart))
  end.

(* ===================================================================== *)
(** * Decidable equality of the descriptors *)
(* ===================================================================== *)

#[global] Instance AttributeType_eq_dec : EqDecision AttributeType.
Proof. solve_decision. Defined.
#[global] Instance RemovalPolicy_eq_dec : EqDecision RemovalPolicy.
Proof. solve_decision. Defined.
#[global] Instance Attribute_eq_dec : EqDecision Attribute.
Proof. solve_decision. Defined.
#[global] Instance Table_eq_dec : EqDecision Table.
Proof. solve_decision. Defined.
#[global] Instance Runtime_eq_dec : EqDecision Runtime.
Proof. solve_decision. Defined.
#[global] Instance BundlingOptions_eq_dec : EqDecision BundlingOptions.
Proof. solve_decision. Defined.
#[global] Instance NodejsFunctionProps_eq_dec : EqDecision NodejsFunctionProps.
Proof. solve_decision. Defined.
#[global] Instance NodejsFunction_eq_dec : EqDecision NodejsFunction.
Proof. solve_decision. Defined.
#[global] Instance AccessLevel_eq_dec : EqDecision AccessLevel.
Proof. solve_decision. Defined.
#[global] Instance Grant_eq_dec : EqDecision Grant.
Proof. solve_decision. Defined.
#[global] Instance AuthorizationType_eq_dec : EqDecision AuthorizationType.
Proof. solve_decision. Defined.
#[global] Instance PassthroughBehavior_eq_dec : EqDecision PassthroughBehavior.
Proof. solve_decision. Defined.
#[global] Instance IntegrationResponse_eq_dec : EqDecision IntegrationResponse.
Proof. solve_decision. Defined.
#[global] Instance IntegrationOptions_eq_dec : EqDecision IntegrationOptions.
Proof. solve_decision. Defined.
#[global] Instance Integration_eq_dec : EqDecision Integration.
Proof. solve_decision. Defined.
#[global] Instance MethodResponse_eq_dec : EqDecision MethodResponse.
Proof. solve_decision. Defined.
#[global] Instance MethodOptions_eq_dec : EqDecision MethodOptions.
Proof. solve_decision. Defined.
#[global] Instance Method_eq_dec : EqDecision Method.
Proof. solve_decision. Defined.
#[global] Instance Resource_eq_dec : EqDecision Resource.
Proof. solve_decision. Defined.
#[global] Instance RestApi_eq_dec : EqDecision RestApi.
Proof. solve_decision. Defined.
#[global] Instance Contract_eq_dec : EqDecision Contract.
Proof. solve_decision. Defined.
#[global] Instance Error_eq_dec : EqDecision Error.
Proof. solve_decision. Defined.

#[global] Instance wellRooted_dec s h r : Decision (wellRooted s h r).
Proof. unfold wellRooted. destruct (parentResource r); apply _. Defined.

(** A decidable fact about concrete descriptors is settled by running its
    decision procedure. *)
Ltac by_evaluation := apply (bool_decide_unpack _); vm_compute; exact I.

(* ===================================================================== *)
(** * Paths *)
(* ===================================================================== *)

Lemma normalize_step_regular stack seg :
  regularSegment seg → normalize_step stack seg = seg :: stack.
Proof.
  intros (H0 & H1 & H2). unfold normalize_step.
  repeat case_decide; congruence.
Qed.

Lemma normalize_snoc p seg :
  regularSegment seg → normalize (p ++ [seg]) = normalize p ++ [seg].
Proof.
  intros Hseg. unfold normalize.
  rewrite fold_left_app. cbn [fold_left].
  rewrite normalize_step_regular by done. reflexivity.
Qed.

(** The entry of a function is a file of the [lambdas] directory next to
    the directory of the source file. *)
Lemma join_lambdas dirname file :
  regularSegment file →
  join [dirname; [".."]; ["lambdas"]; [file]]
  = normalize (dirname ++ [".."]) ++ ["lambdas"; file].
Proof.
  intros Hfile. unfold join. cbn [concat app].
  change (dirname ++ [".."; "lambdas"; file])
    with (dirname ++ [".."] ++ ["lambdas"] ++ [file]).
  rewrite !app_assoc.
  rewrite normalize_snoc by done.
  rewrite normalize_snoc by (unfold regularSegment; done).
  rewrite <- !app_assoc. reflexivity.
Qed.

Lemma join_lambdas_inj dirname f1 f2 :
  regularSegment f1 → regularSegment f2 →
  join [dirname; [".."]; ["lambdas"]; [f1]]
  = join [dirname; [".."]; ["lambdas"]; [f2]] →
  f1 = f2.
Proof.
  intros H1 H2. rewrite !join_lambdas by done.
  intros Heq. apply app_inv_head in Heq. congruence.
Qed.

(* ===================================================================== *)
(** * Adding methods, on any stack *)
(* ===================================================================== *)

Lemma addMethod_unknown s h verb i o :
  s.(resources) !! h = None →
  addMethod h verb i o s = (inl (UnknownResource h), s).
Proof. intros Hl. unfold addMethod, bind, get. cbn. rewrite Hl. reflexivity. Qed.

Lemma addMethod_duplicate s h r verb i o :
  s.(resources) !! h = Some r → hasMethod verb r = true →
  addMethod h verb i o s = (inl (DuplicateConstruct h.2 verb), s).
Proof.
  intros Hl Hm. unfold addMethod, bind, get. cbn. rewrite Hl, Hm. reflexivity.
Qed.

Lemma addMethod_fresh s h r verb i o :
  s.(resources) !! h = Some r → hasMethod verb r = false →
  addMethod h verb i o s
  = (inr tt,
     withResources s
       (<[h := attachMethod {| httpMethod := verb; integration := i;
                               options := o |} r]> s.(resources))).
Proof.
  intros Hl Hm. unfold addMethod, bind, get. cbn. rewrite Hl, Hm. reflexivity.
Qed.

Lemma hasMethod_attach verb m r :
  hasMethod verb (attachMethod m r)
  = hasMethod verb r || bool_decide (m.(httpMethod) = verb).
Proof.
  unfold hasMethod, attachMethod. cbn [methods].
  rewrite fmap_app. cbn [fmap list_fmap].
  apply eq_true_iff_eq.
  rewrite orb_true_iff, !bool_decide_eq_true, elem_of_app, list_elem_of_singleton.
  split; (intros [H|H]; [left|right]); done.
Qed.

Lemma lookupMethod_None verb r :
  hasMethod verb r = false → lookupMethod verb r = None.
Proof.
  unfold hasMethod, lookupMethod. rewrite bool_decide_eq_false.
  intros Hnot. destruct (find _ _) as [m|] eqn:Hf; [|done].
  apply find_some in Hf as [Hin Heq].
  apply bool_decide_eq_true in Heq. destruct Hnot.
  apply list_elem_of_fmap. exists m. split; [done|].
  by apply list_elem_of_In.
Qed.

Lemma lookupMethod_is_Some verb r :
  hasMethod verb r = true → is_Some (lookupMethod verb r).
Proof.
  unfold hasMethod, lookupMethod. rewrite bool_decide_eq_true.
  intros (m & -> & Hin)%list_elem_of_fmap.
  destruct (find _ _) as [m'|] eqn:Hf; [by eexists|].
  apply list_elem_of_In in Hin.
  eapply find_none in Hf; [|done]. cbn in Hf.
  by apply bool_decide_eq_false in Hf.
Qed.

(** A verb a resource already has keeps its entry when another method is
    attached: the first entry is the one that is found. *)
Lemma lookupMethod_attach_old verb m r :
  hasMethod verb r = true →
  lookupMethod verb (attachMethod m r) = lookupMethod verb r.
Proof.
  intros [m0 Hm0]%lookupMethod_is_Some. rewrite Hm0.
  unfold lookupMethod, attachMethod in *. cbn [methods].
  induction (methods r) as [|x l IH]; [done|].
  cbn in *. destruct (bool_decide (httpMethod x = verb)); [done|]. auto.
Qed.

Lemma lookupMethod_attach_new verb m r :
  hasMethod verb r = false → m.(httpMethod) = verb →
  lookupMethod verb (attachMethod m r) = Some m.
Proof.
  intros Hno Hverb. unfold hasMethod in Hno. apply bool_decide_eq_false in Hno.
  unfold lookupMethod, attachMethod. cbn [methods].
  induction (methods r) as [|x l IH]; cbn.
  - by rewrite bool_decide_true.
  - rewrite fmap_cons, not_elem_of_cons in Hno. destruct Hno as [Hx Hl].
    rewrite bool_decide_false by done. auto.
Qed.

Lemma contractOf_corsMethod : contractOf corsMethod = Some corsContract.
Proof. reflexivity. Qed.

Lemma addCorsOptions_fresh s h r :
  s.(resources) !! h = Some r → hasMethod "OPTIONS" r = false →
  addCorsOptions h s
  = (inr tt, withResources s (<[h := attachMethod corsMethod r]> s.(resources))).
Proof. intros Hl Hm. unfold addCorsOptions. by rewrite (addMethod_fresh s h r). Qed.

(** Where the routine returns, the resource answers preflight requests with
    the contract above. *)
Lemma addCorsOptions_contract s h r :
  s.(resources) !! h = Some r → hasMethod "OPTIONS" r = false →
  preflightContract (after (addCorsOptions h) s) h = Some corsContract.
Proof.
  intros Hl Hm. unfold after. rewrite (addCorsOptions_fresh s h r) by done.
  unfold preflightContract. cbn [snd withResources resources].
  rewrite lookup_insert_eq. cbn [mbind option_bind].
  rewrite lookupMethod_attach_new by done. reflexivity.
Qed.

(** A resource that has an OPTIONS entry is left as it is: the routine
    throws before it changes anything. *)
Lemma addCorsOptions_present s h r :
  s.(resources) !! h = Some r → hasMethod "OPTIONS" r = true →
  addCorsOptions h s = (inl (DuplicateConstruct h.2 "OPTIONS"), s).
Proof. intros Hl Hm. unfold addCorsOptions. by rewrite (addMethod_duplicate s h r). Qed.

Lemma addCorsOptions_after_cases s h :
  (after (addCorsOptions h) s = s)
  ∨ (∃ r, s.(resources) !! h = Some r ∧ hasMethod "OPTIONS" r = false
        ∧ after (addCorsOptions h) s
          = withResources s (<[h := attachMethod corsMethod r]> s.(resources))).
Proof.
  unfold after. destruct (s.(resources) !! h) as [r|] eqn:Hl.
  - destruct (hasMethod "OPTIONS" r) eqn:Hm.
    + left. by rewrite (addCorsOptions_present s h r).
    + right. exists r. by rewrite (addCorsOptions_fresh s h r).
  - left. unfold addCorsOptions. by rewrite addMethod_unknown.
Qed.

(** ** C8 *)

(** C8. The cross-origin attachment routine is idempotent.  Applied a second
    time to a resource, it leaves the stack, and with it the resource's
    preflight contract (the OPTIONS status and the four header values), as
    the first application left them: the second application throws the
    duplicate-entry error before it changes anything.  Where the first
    application returned, the contract is the fixed one and the second
    application's outcome is that error.  Also when the duplicate entry is
    attached all the same, the entry found for OPTIONS is the one that was
    there. *)
Theorem addCorsOptions_idempotent (s : Stack) (h : IResource) :
  let s1 := after (addCorsOptions h) s in
  let s2 := after (addCorsOptions h) s1 in
  s2 = s1
  ∧ preflightContract s2 h = preflightContract s1 h
  ∧ (outcome (addCorsOptions h) s = inr tt →
       preflightContract s1 h = Some corsContract
       ∧ preflightContract s2 h = Some corsContract
       ∧ outcome (addCorsOptions h) s1
         = inl (DuplicateConstruct h.2 "OPTIONS"))
  ∧ (∀ r, hasMethod "OPTIONS" r = true →
       lookupMethod "OPTIONS" (attachMethod corsMethod r)
       = lookupMethod "OPTIONS" r).
Proof.
  intros s1 s2.
  assert (Hs : s2 = s1).
  { subst s2 s1.
    destruct (addCorsOptions_after_cases s h) as [Hsame | (r & Hl & Hm & Hnew)].
    - by rewrite !Hsame.
    - rewrite Hnew. unfold after.
      erewrite addCorsOptions_present; [done | apply lookup_insert_eq |].
      rewrite hasMethod_attach. by rewrite orb_true_r. }
  split; [done|]. split; [by rewrite Hs|].
  split; [|intros r Hr; by apply lookupMethod_attach_old].
  intros Hret. subst s2 s1. unfold outcome in *.
  destruct (resources s !! h) as [r|] eqn:Hl.
  - destruct (hasMethod "OPTIONS" r) eqn:Hm.
    + by rewrite (addCorsOptions_present s h r) in Hret.
    + assert (Hc := addCorsOptions_contract s h r Hl Hm).
      rewrite Hs. split; [done|]. split; [done|].
      unfold after. rewrite (addCorsOptions_fresh s h r) by done. cbn [snd].
      erewrite addCorsOptions_present; [done | apply lookup_insert_eq |].
      rewrite hasMethod_attach. by rewrite orb_true_r.
  - unfold addCorsOptions in Hret. by rewrite addMethod_unknown in Hret.
Qed.

(* ===================================================================== *)
(** * The stack the constructor builds *)
(* ===================================================================== *)

Section Built.
Context (dirname : path) (id : string).

Local Abbreviation built := (built dirname id).

(** The constructor returns: no construct id is taken twice. *)
Lemma constructor_returns :
  (ApiLambdaCrudDynamoDBStack dirname id).1 = inr tt.
Proof. by_evaluation. Qed.

Lemma tables_built : tables built = [itemsTable].
Proof. by_evaluation. Qed.

Lemma functions_built : functions built = lambdaOf dirname <$> lambdaFiles.
Proof. reflexivity. Qed.

Lemma grants_built :
  grants built
  = (λ fid, {| grantee := fid; onTable := "items"; access := ReadWriteData |})
    <$> [ "getAllItemsFunction"; "getOneItemFunction"; "createItemFunction";
          "updateItemFunction"; "deleteItemFunction" ].
Proof. by_evaluation. Qed.

Lemma routeNodes_built : routeNodes built = {[ itemsNode; singleItemNode ]}.
Proof. by_evaluation. Qed.

Lemma resources_built :
  dom (resources built) = {[ ("itemsApi", "/"); itemsNode; singleItemNode ]}.
Proof. by_evaluation. Qed.

Lemma verbs_built :
  verbsOf built ("itemsApi", "/") = []
  ∧ verbsOf built itemsNode = ["GET"; "POST"; "OPTIONS"]
  ∧ verbsOf built singleItemNode = ["GET"; "PUT"; "DELETE"; "OPTIONS"].
Proof. by_evaluation. Qed.

Lemma preflight_built (h : IResource) :
  h ∈ routeNodes built → preflightContract built h = Some corsContract.
Proof.
  rewrite routeNodes_built.
  intros Hh. apply elem_of_union in Hh as [Hh | Hh];
    apply elem_of_singleton in Hh; subst h; by_evaluation.
Qed.

Lemma function_built (f : NodejsFunction) :
  f ∈ functions built → ∃ p, p ∈ lambdaFiles ∧ f = lambdaOf dirname p.
Proof.
  rewrite functions_built. intros (p & -> & Hp)%list_elem_of_fmap. eauto.
Qed.

Lemma lambdaFiles_regular : Forall (λ p, regularSegment p.2) lambdaFiles.
Proof. unfold regularSegment. by_evaluation. Qed.

Lemma lambdaFiles_distinct :
  Forall (λ p, Forall (λ q, p ≠ q → p.1 ≠ q.1 ∧ p.2 ≠ q.2) lambdaFiles)
         lambdaFiles.
Proof. by_evaluation. Qed.

Lemma entry_lambdaOf (p : string * string) :
  p ∈ lambdaFiles →
  (lambdaOf dirname p).(functionProps).(entry)
  = Some (lambdaEntry dirname p.2).
Proof.
  intros Hp.
  change (entry (functionProps (lambdaOf dirname p)))
    with (Some (join [dirname; [".."]; ["lambdas"]; [p.2]])).
  unfold lambdaEntry. rewrite join_lambdas; [done|].
  by apply (proj1 (Forall_forall _ _) lambdaFiles_regular p).
Qed.

Lemma routesTo_built (h : IResource) (verb : string) (p : string * string) :
  p ∈ lambdaFiles →
  boundFunction built h verb = Some (lambdaOf dirname p) →
  routesTo built h verb p.1 (lambdaEntry dirname p.2).
Proof.
  intros Hp Hb. exists (lambdaOf dirname p). split; [done|].
  split; [|split; [done | by apply entry_lambdaOf]].
  rewrite functions_built. apply list_elem_of_fmap. eauto.
Qed.

(** ** C1 *)

(** C1 (amended). Building the stack from its fixed literals returns and
    produces exactly 1 table, exactly 5 functions, exactly 5 grants, and
    exactly 7 method entries (five verb-bound, two preflight) on exactly 2
    resources, /items and /items/{id}. *)
Theorem descriptor_counts :
  (ApiLambdaCrudDynamoDBStack dirname id).1 = inr tt
  ∧ descriptorCounts built = (1, 5, 5, 7, 2)
  ∧ routeNodes built = {[ ("itemsApi", "/items"); ("itemsApi", "/items/{id}") ]}
  ∧ length (filter (λ hm, isPreflight hm.2 = false) (allMethods built)) = 5
  ∧ length (filter (λ hm, isPreflight hm.2 = true) (allMethods built)) = 2.
Proof. by_evaluation. Qed.

(** ** C2 *)

(** C2. Every resource of the built stack that carries a real
    (non-preflight) method also has an OPTIONS entry, and the response
    contract of that entry has exactly the four CORS headers, no others,
    both among the headers it answers with and among those it declares. *)
Theorem preflight_on_every_route_node (h : IResource) (r : Resource) :
  resources built !! h = Some r →
  hasRealMethods r = true →
  ∃ m c, lookupMethod "OPTIONS" r = Some m
         ∧ contractOf m = Some c
         ∧ dom c.(headerValues) = corsHeaders
         ∧ c.(declaredHeaders) = corsHeaders.
Proof.
  intros Hl Hreal.
  assert (Hall : map_Forall
            (λ _ r, hasRealMethods r = true →
                    lookupMethod "OPTIONS" r = Some corsMethod)
            (resources built)) by by_evaluation.
  exists corsMethod, corsContract.
  split; [by apply (Hall h r)|].
  split; [reflexivity|]. split; by_evaluation.
Qed.

(** ** C3 *)

(** C3. There are five functions, and the environment of each has the
    keys PRIMARY_KEY and TABLE_NAME, whose values are the name of the
    table's partition key and the table's name. *)
Theorem environment_contract (f : NodejsFunction) :
  f ∈ functions built →
  length (functions built) = 5
  ∧ ∃ t env, tables built = [t]
      ∧ f.(functionProps).(environment) = Some env
      ∧ env !! "PRIMARY_KEY" = Some t.(partitionKey).(name)
      ∧ env !! "TABLE_NAME" = Some t.(tableName).
Proof.
  intros (p & Hp & ->)%function_built.
  split; [reflexivity|].
  exists itemsTable,
    (<["PRIMARY_KEY" := "id"]> (<["TABLE_NAME" := "items"]> ∅)).
  split; [apply tables_built|].
  split; [reflexivity|]. split; by_evaluation.
Qed.

(** ** C4 *)

(** C4. Each of the five functions has exactly one grant, it is a grant
    on the one table and its access level is read/write; there are five
    grants in all. *)
Theorem one_grant_per_function (f : NodejsFunction) :
  f ∈ functions built →
  length (grants built) = 5
  ∧ ∃ t, tables built = [t]
      ∧ grantsOf built f
        = [ {| grantee := f.(functionId); onTable := t.(tableId);
               access := ReadWriteData |} ].
Proof.
  intros (p & Hp & ->)%function_built.
  split; [by_evaluation|].
  exists itemsTable. split; [apply tables_built|].
  assert (Hall : Forall
            (λ p, grantsOf built (lambdaOf dirname p)
                  = [ {| grantee := p.1; onTable := "items";
                         access := ReadWriteData |} ])
            lambdaFiles) by by_evaluation.
  by apply (proj1 (Forall_forall _ _) Hall p).
Qed.

(** ** C5 *)

(** C5. On /items, GET is routed to the list-all function and POST to the
    create function; on /items/{id}, GET is routed to the read-one
    function, PUT to the update function and DELETE to the delete
    function; both resources carry OPTIONS besides, and nothing else. *)
Theorem route_bindings :
  routesTo built ("itemsApi", "/items") "GET"
    "getAllItemsFunction" (lambdaEntry dirname "get-all.ts")
  ∧ routesTo built ("itemsApi", "/items") "POST"
    "createItemFunction" (lambdaEntry dirname "create.ts")
  ∧ routesTo built ("itemsApi", "/items/{id}") "GET"
    "getOneItemFunction" (lambdaEntry dirname "get-one.ts")
  ∧ routesTo built ("itemsApi", "/items/{id}") "PUT"
    "updateItemFunction" (lambdaEntry dirname "update-one.ts")
  ∧ routesTo built ("itemsApi", "/items/{id}") "DELETE"
    "deleteItemFunction" (lambdaEntry dirname "delete-one.ts")
  ∧ verbsOf built ("itemsApi", "/items") = ["GET"; "POST"; "OPTIONS"]
  ∧ verbsOf built ("itemsApi", "/items/{id}")
    = ["GET"; "PUT"; "DELETE"; "OPTIONS"].
Proof.
  pose proof routesTo_built as Hroute.
  split; [apply (Hroute _ _ ("getAllItemsFunction", "get-all.ts"));
          [by_evaluation | reflexivity] |].
  split; [apply (Hroute _ _ ("createItemFunction", "create.ts"));
          [by_evaluation | reflexivity] |].
  split; [apply (Hroute _ _ ("getOneItemFunction", "get-one.ts"));
          [by_evaluation | reflexivity] |].
  split; [apply (Hroute _ _ ("updateItemFunction", "update-one.ts"));
          [by_evaluation | reflexivity] |].
  split; [apply (Hroute _ _ ("deleteItemFunction", "delete-one.ts"));
          [by_evaluation | reflexivity] |].
  by_evaluation.
Qed.

(** ** C6 *)

(** C6. The preflight response of every resource that has methods has
    status 200 and fixed header values, the same for every build: the
    allowed origin is '*', the credentials flag is 'false', and the
    allowed headers and methods are fixed literal lists.  The entry is
    answered by a mock integration, not by a function. *)
Theorem preflight_response_fixed (h : IResource) :
  h ∈ routeNodes built →
  boundFunction built h "OPTIONS" = None
  ∧ ∃ c, preflightContract built h = Some c
      ∧ c.(status) = "200" ∧ c.(declaredStatus) = "200"
      ∧ c.(headerValues) !! hdr "Access-Control-Allow-Origin" = Some "'*'"
      ∧ c.(headerValues) !! hdr "Access-Control-Allow-Credentials"
        = Some "'false'"
      ∧ c.(headerValues) !! hdr "Access-Control-Allow-Headers"
        = Some "'Content-Type,X-Amz-Date,Authorization,X-Api-Key,X-Amz-Security-Token,X-Amz-User-Agent'"
      ∧ c.(headerValues) !! hdr "Access-Control-Allow-Methods"
        = Some "'OPTIONS,GET,PUT,POST,DELETE'".
Proof.
  intros Hh. split.
  - rewrite routeNodes_built in Hh.
    apply elem_of_union in Hh as [Hh | Hh];
      apply elem_of_singleton in Hh; subst h; by_evaluation.
  - exists corsContract. split; [by apply preflight_built|].
    repeat split; by_evaluation.
Qed.

(** ** C7 *)

(** C7 (amended). Every method entry of the built stack is open: each of
    the seven entries ends up with authorization type NONE.  The five
    verb-bound entries say so themselves; the two preflight entries say
    nothing and get NONE because the API has no default method options. *)
Theorem every_method_open :
  length (allMethods built) = 7
  ∧ Forall (λ hm, effectiveAuthorization None hm.2 = NONE
                  ∧ hm.2.(options).(authorizationType)
                    = (if isPreflight hm.2 then None else Some NONE))
           (allMethods built).
Proof. by_evaluation. Qed.

(** ** C9 *)

(** C9. The Access-Control-Allow-Methods preflight header has the same
    fixed value 'OPTIONS,GET,PUT,POST,DELETE' on both resources, so the
    preflight of /items advertises PUT and DELETE although /items has no
    PUT and no DELETE method entry. *)
Theorem collection_preflight_advertises_undeclared_verbs :
  allowMethodsValue built ("itemsApi", "/items")
  = Some "'OPTIONS,GET,PUT,POST,DELETE'"
  ∧ allowMethodsValue built ("itemsApi", "/items/{id}")
    = Some "'OPTIONS,GET,PUT,POST,DELETE'"
  ∧ advertisedVerbs built ("itemsApi", "/items")
    = ["OPTIONS"; "GET"; "PUT"; "POST"; "DELETE"]
  ∧ "PUT" ∈ advertisedVerbs built ("itemsApi", "/items")
  ∧ "DELETE" ∈ advertisedVerbs built ("itemsApi", "/items")
  ∧ ("PUT" ∉ verbsOf built ("itemsApi", "/items"))
  ∧ ("DELETE" ∉ verbsOf built ("itemsApi", "/items")).
Proof. by_evaluation. Qed.

(** ** C10 *)

(** C10. Each of the five functions is made from the one shared
    configuration value spread after its entry: its runtime, its bundling
    options and its environment are those of the shared value (Node.js 20,
    aws-sdk kept external, PRIMARY_KEY and TABLE_NAME), so any two of them
    have the same runtime, the same bundling options and the same
    environment; two different functions differ in their construct id and
    in their entry file, and in nothing else. *)
Theorem shared_function_configuration (f g : NodejsFunction) :
  f ∈ functions built → g ∈ functions built →
  (∃ e, f.(functionProps) = spread (entryOnly e) (nodeJsFunctionProps itemsTable))
  ∧ (∃ t, tables built = [t]
        ∧ f.(functionProps).(runtime) = (nodeJsFunctionProps t).(runtime)
        ∧ f.(functionProps).(bundling) = (nodeJsFunctionProps t).(bundling)
        ∧ f.(functionProps).(environment)
          = (nodeJsFunctionProps t).(environment))
  ∧ f.(functionProps).(runtime) = Some NODEJS_20_X
  ∧ f.(functionProps).(bundling) = Some {| externalModules := ["aws-sdk"] |}
  ∧ (∃ env, f.(functionProps).(environment) = Some env
        ∧ dom env = {[ "PRIMARY_KEY"; "TABLE_NAME" ]}
        ∧ env !! "PRIMARY_KEY" = Some "id"
        ∧ env !! "TABLE_NAME" = Some "items")
  ∧ f.(functionProps).(runtime) = g.(functionProps).(runtime)
  ∧ f.(functionProps).(bundling) = g.(functionProps).(bundling)
  ∧ f.(functionProps).(environment) = g.(functionProps).(environment)
  ∧ (f ≠ g → f.(functionId) ≠ g.(functionId)
             ∧ f.(functionProps).(entry) ≠ g.(functionProps).(entry)).
Proof.
  intros (p & Hp & ->)%function_built (q & Hq & ->)%function_built.
  split; [by eexists|].
  split.
  { exists itemsTable. split; [apply tables_built|]. by repeat split. }
  split; [reflexivity|]. split; [reflexivity|].
  split.
  { exists (<["PRIMARY_KEY" := "id"]> (<["TABLE_NAME" := "items"]> ∅)).
    split; [reflexivity|]. repeat split; by_evaluation. }
  do 3 (split; [reflexivity|]).
  intros Hne.
  assert (Hpq : p ≠ q) by congruence.
  pose proof (proj1 (Forall_forall _ _) lambdaFiles_distinct p Hp) as Hd.
  destruct (proj1 (Forall_forall _ _) Hd q Hq Hpq) as [Hid Hfile].
  split; [done|].
  rewrite !entry_lambdaOf by done. unfold lambdaEntry.
  intros Heq. apply Hfile.
  injection Heq as Heq. apply app_inv_head in Heq. congruence.
Qed.

End Built.

(* ===================================================================== *)
(** * The program's own build *)
(* ===================================================================== *)

Example exampleStack_is_synth : exampleStack = synth exampleDir.
Proof. reflexivity. Qed.

Example example_entry :
  render (join [exampleDir; [".."]; ["lambdas"]; ["get-one.ts"]])
  = "/srv/app/lambdas/get-one.ts".
Proof. reflexivity. Qed.

Example example_verbs :
  verbsOf exampleStack itemsNode = ["GET"; "POST"; "OPTIONS"]
  ∧ verbsOf exampleStack singleItemNode = ["GET"; "PUT"; "DELETE"; "OPTIONS"].
Proof. by_evaluation. Qed.

(** Attaching the preflight entry to /items once more throws and leaves the
    stack as it was. *)
Example example_second_attachment :
  addCorsOptions itemsNode exampleStack
  = (inl (DuplicateConstruct "/items" "OPTIONS"), exampleStack).
Proof.
  apply (addCorsOptions_present exampleStack itemsNode itemsResource);
    by_evaluation.
Qed.

(** C1, as stated, fails: the build has seven method entries, not eight. *)
Lemma descriptor_counts_not_eight :
  descriptorCounts exampleStack ≠ (1, 5, 5, 8, 2).
Proof. by_evaluation. Qed.

(** C7, as stated, fails: there are not eight method entries to be open. *)
Lemma not_eight_open_methods :
  ¬ (length (allMethods exampleStack) = 8
     ∧ Forall (λ hm, effectiveAuthorization None hm.2 = NONE)
              (allMethods exampleStack)).
Proof. by_evaluation. Qed.

Lemma preflight_on_every_route_node_witness :
  resources exampleStack !! itemsNode = Some itemsResource
  ∧ hasRealMethods itemsResource = true
  ∧ ∃ m c, lookupMethod "OPTIONS" itemsResource = Some m
           ∧ contractOf m = Some c
           ∧ dom c.(headerValues) = corsHeaders
           ∧ c.(declaredHeaders) = corsHeaders.
Proof.
  split; [by_evaluation|]. split; [reflexivity|].
  apply (preflight_on_every_route_node exampleDir
           "ApiLambdaCrudDynamoDBExample" itemsNode itemsResource);
    [by_evaluation | reflexivity].
Defined.

Lemma environment_contract_witness :
  let f := lambdaOf exampleDir ("createItemFunction", "create.ts") in
  f ∈ functions exampleStack
  ∧ ∃ t env, tables exampleStack = [t]
      ∧ f.(functionProps).(environment) = Some env
      ∧ env !! "PRIMARY_KEY" = Some t.(partitionKey).(name)
      ∧ env !! "TABLE_NAME" = Some t.(tableName).
Proof.
  intros f. split; [by_evaluation|].
  apply (environment_contract exampleDir "ApiLambdaCrudDynamoDBExample" f).
  by_evaluation.
Defined.

Lemma one_grant_per_function_witness :
  let f := lambdaOf exampleDir ("getAllItemsFunction", "get-all.ts") in
  f ∈ functions exampleStack
  ∧ ∃ t, tables exampleStack = [t]
      ∧ grantsOf exampleStack f
        = [ {| grantee := "getAllItemsFunction"; onTable := t.(tableId);
               access := ReadWriteData |} ].
Proof.
  intros f. split; [by_evaluation|].
  apply (one_grant_per_function exampleDir "ApiLambdaCrudDynamoDBExample" f).
  by_evaluation.
Defined.

Lemma preflight_response_fixed_witness :
  singleItemNode ∈ routeNodes exampleStack
  ∧ boundFunction exampleStack singleItemNode "OPTIONS" = None.
Proof.
  split; [by_evaluation|].
  apply (preflight_response_fixed exampleDir "ApiLambdaCrudDynamoDBExample"
           singleItemNode).
  by_evaluation.
Defined.

Lemma addCorsOptions_idempotent_witness :
  outcome (addCorsOptions ("itemsApi", "/")) exampleApiStack = inr tt
  ∧ preflightContract
      (after (addCorsOptions ("itemsApi", "/"))
         (after (addCorsOptions ("itemsApi", "/")) exampleApiStack))
      ("itemsApi", "/")
    = Some corsContract.
Proof.
  split; [by_evaluation|].
  destruct (addCorsOptions_idempotent exampleApiStack ("itemsApi", "/"))
    as (_ & _ & Hret & _).
  apply Hret. by_evaluation.
Defined.

Lemma shared_function_configuration_witness :
  let f := lambdaOf exampleDir ("getOneItemFunction", "get-one.ts") in
  let g := lambdaOf exampleDir ("deleteItemFunction", "delete-one.ts") in
  f ∈ functions exampleStack ∧ g ∈ functions exampleStack
  ∧ f.(functionProps).(runtime) = Some NODEJS_20_X
  ∧ f.(functionProps).(bundling) = Some {| externalModules := ["aws-sdk"] |}
  ∧ (∃ env, f.(functionProps).(environment) = Some env
        ∧ dom env = {[ "PRIMARY_KEY"; "TABLE_NAME" ]}
        ∧ env !! "PRIMARY_KEY" = Some "id"
        ∧ env !! "TABLE_NAME" = Some "items")
  ∧ f.(functionProps).(environment) = g.(functionProps).(environment)
  ∧ (f ≠ g → f.(functionId) ≠ g.(functionId)
             ∧ f.(functionProps).(entry) ≠ g.(functionProps).(entry)).
Proof.
  intros f g.
  assert (Hf : f ∈ functions exampleStack) by by_evaluation.
  assert (Hg : g ∈ functions exampleStack) by by_evaluation.
  destruct (shared_function_configuration exampleDir
              "ApiLambdaCrudDynamoDBExample" f g Hf Hg)
    as (_ & _ & Hrun & Hbun & Henv & _ & _ & Heq & Hdiff).
  split; [exact Hf|]. split; [exact Hg|]. split; [exact Hrun|].
  split; [exact Hbun|]. split; [exact Henv|]. split; [exact Heq|].
  exact Hdiff.
Defined.

(* ===================================================================== *)
(** * More on [addCorsOptions], on any stack *)
(* ===================================================================== *)

Lemma addCorsOptions_returns s h :
  outcome (addCorsOptions h) s = inr tt →
  ∃ r, s.(resources) !! h = Some r ∧ hasMethod "OPTIONS" r = false.
Proof.
  unfold outcome. intros Hret.
  destruct (s.(resources) !! h) as [r|] eqn:Hl.
  - destruct (hasMethod "OPTIONS" r) eqn:Hm; [|by eauto].
    by rewrite (addCorsOptions_present s h r) in Hret.
  - unfold addCorsOptions in Hret. by rewrite addMethod_unknown in Hret.
Qed.

Lemma lookupMethod_attach_other verb m r :
  m.(httpMethod) ≠ verb →
  lookupMethod verb (attachMethod m r) = lookupMethod verb r.
Proof.
  intros Hne. unfold lookupMethod, attachMethod. cbn [methods].
  induction (methods r) as [|x l IH]; cbn.
  - by rewrite bool_decide_false.
  - by destruct (bool_decide (httpMethod x = verb)).
Qed.

(** X1. Where [addCorsOptions] returns, the resource keeps its path part,
    its parent and every method it had, in their order and as they were,
    and has one more method after them, the OPTIONS entry the routine
    declares.  Every other resource is as before and none is added or
    removed; the tables, the functions and the grants are as before; and
    every other verb of the resource is bound to the function it was bound
    to. *)
Theorem addCorsOptions_frame (s : Stack) (h : IResource) (r : Resource) :
  s.(resources) !! h = Some r →
  outcome (addCorsOptions h) s = inr tt →
  let s' := after (addCorsOptions h) s in
  resources s' !! h
  = Some {| pathPart := r.(pathPart); parentResource := r.(parentResource);
            methods := r.(methods) ++ [corsMethod] |}
  ∧ (∀ h', h' ≠ h → resources s' !! h' = resources s !! h')
  ∧ dom (resources s') = dom (resources s)
  ∧ tables s' = tables s ∧ functions s' = functions s
  ∧ grants s' = grants s
  ∧ verbsOf s' h = verbsOf s h ++ ["OPTIONS"]
  ∧ (∀ verb, verb ≠ "OPTIONS" →
       boundFunction s' h verb = boundFunction s h verb).
Proof.
  intros Hl (r0 & Hl0 & Hm)%addCorsOptions_returns s'. subst s'.
  assert (r0 = r) as -> by congruence. clear Hl0.
  unfold after. rewrite (addCorsOptions_fresh s h r) by done.
  cbn [snd withResources tables functions grants resources].
  split; [apply lookup_insert_eq|].
  split; [intros h' Hne; by rewrite lookup_insert_ne|].
  split.
  { rewrite dom_insert_L.
    apply subseteq_union_1_L, singleton_subseteq_l.
    by apply (elem_of_dom_2 _ _ r). }
  do 3 (split; [reflexivity|]).
  split.
  - unfold verbsOf. cbn [resources withResources].
    rewrite lookup_insert_eq, Hl.
    cbn [attachMethod methods]. by rewrite fmap_app.
  - intros verb Hverb. unfold boundFunction.
    cbn [resources functions withResources]. rewrite lookup_insert_eq, Hl.
    cbn [mbind option_bind].
    rewrite lookupMethod_attach_other; [done|]. cbn. congruence.
Qed.

Lemma nodeComplete_attach_cors r : nodeComplete (attachMethod corsMethod r) = true.
Proof.
  unfold nodeComplete. rewrite hasMethod_attach.
  rewrite bool_decide_true by done. rewrite orb_true_r.
  by destruct (hasRealMethods _).
Qed.

(** X4. Where [addCorsOptions] returns, the OPTIONS entry it leaves on the
    resource is consistent: every response its mock integration answers
    with has a method response of the same status code that lists every
    header the answer sets, and the entry is bound to no function. *)
Theorem addCorsOptions_declares_what_it_answers (s : Stack) (h : IResource) :
  outcome (addCorsOptions h) s = inr tt →
  let s' := after (addCorsOptions h) s in
  boundFunction s' h "OPTIONS" = None
  ∧ ∃ r m, resources s' !! h = Some r
           ∧ lookupMethod "OPTIONS" r = Some m
           ∧ responsesConsistent m = true.
Proof.
  intros (r & Hl & Hm)%addCorsOptions_returns s'. subst s'.
  unfold after. rewrite (addCorsOptions_fresh s h r) by done.
  cbn [snd]. split.
  - unfold boundFunction. cbn [resources withResources].
    rewrite lookup_insert_eq. cbn [mbind option_bind].
    by rewrite lookupMethod_attach_new.
  - exists (attachMethod corsMethod r), corsMethod.
    cbn [resources withResources]. split; [apply lookup_insert_eq|].
    split; [by apply lookupMethod_attach_new|]. by_evaluation.
Qed.

(** X5. [addCorsOptions] keeps a route tree complete and completes it: if
    every resource with a real method had a preflight entry before the
    call, so it is after it, whether the call returned or threw; and if the
    call returns and every other resource is complete, the whole tree is. *)
Theorem addCorsOptions_completes (s : Stack) (h : IResource) :
  let s' := after (addCorsOptions h) s in
  (preflightComplete s → preflightComplete s')
  ∧ (outcome (addCorsOptions h) s = inr tt →
     (∀ h' r', h' ≠ h → resources s !! h' = Some r' → nodeComplete r' = true) →
     preflightComplete s').
Proof.
  intros s'. subst s'. split.
  - intros Hc.
    destruct (addCorsOptions_after_cases s h) as [-> | (r & Hl & Hm & ->)];
      [done|].
    unfold preflightComplete. cbn [resources withResources].
    apply map_Forall_insert_2; [apply nodeComplete_attach_cors | done].
  - intros (r & Hl & Hm)%addCorsOptions_returns Hothers.
    unfold after. rewrite (addCorsOptions_fresh s h r) by done.
    unfold preflightComplete. cbn [snd resources withResources].
    apply map_Forall_lookup. intros h' r' Hl'.
    destruct (decide (h' = h)) as [-> | Hne].
    + rewrite lookup_insert_eq in Hl'. injection Hl' as <-.
      apply nodeComplete_attach_cors.
    + rewrite lookup_insert_ne in Hl' by done. by apply (Hothers h').
Qed.

(* ===================================================================== *)
(** * More on paths *)
(* ===================================================================== *)

Lemma fold_normalize_regular p acc :
  Forall regularSegment p →
  fold_left normalize_step p acc = rev p ++ acc.
Proof.
  intros Hp. revert acc. induction Hp as [|seg p Hseg Hp IH]; intros acc.
  - reflexivity.
  - cbn [fold_left rev]. rewrite normalize_step_regular by done.
    rewrite IH. by rewrite <- app_assoc.
Qed.

(** A path without [.], [..] and empty segments is its own normal form. *)
Lemma normalize_regular p : Forall regularSegment p → normalize p = p.
Proof.
  intros Hp. unfold normalize. rewrite fold_normalize_regular by done.
  rewrite app_nil_r. apply rev_involutive.
Qed.

Lemma normalize_up base d :
  Forall regularSegment base → regularSegment d →
  normalize (base ++ [d] ++ [".."]) = base.
Proof.
  intros Hbase Hd. unfold normalize.
  rewrite !fold_left_app. cbn [fold_left].
  rewrite (normalize_step_regular _ d) by done.
  rewrite fold_normalize_regular by done.
  rewrite app_nil_r.
  change (normalize_step (d :: rev base) "..") with (rev base).
  apply rev_involutive.
Qed.

(* ===================================================================== *)
(** * More on the stack the constructor builds *)
(* ===================================================================== *)

(** X6. When the source file is in directory [d] of [base] (a path without
    [.], [..] and empty segments), the entry of every function is a file
    directly in [base/lambdas], one of the five entry files: the entries do
    not keep the [..] and do not mention [d]. *)
Theorem entries_in_sibling_lambdas (base : path) (d id : string)
    (f : NodejsFunction) :
  Forall regularSegment base → regularSegment d →
  f ∈ functions (built (base ++ [d]) id) →
  ∃ file, file ∈ (snd <$> lambdaFiles)
          ∧ f.(functionProps).(entry) = Some (base ++ ["lambdas"; file]).
Proof.
  intros Hbase Hd (p & Hp & ->)%function_built.
  exists p.2. split; [apply list_elem_of_fmap; by exists p|].
  rewrite entry_lambdaOf by done. unfold lambdaEntry.
  rewrite <- app_assoc. by rewrite normalize_up.
Qed.

Section BuiltMore.
Context (dirname : path) (id : string).

Local Abbreviation built := (built dirname id).

(** X7. Every Lambda integration of the built stack hands to a function the
    stack declares, and every declared function is handed to by exactly one
    method: no route dangles and no function is left without a route. *)
Theorem every_function_routed_once :
  handlers built ≡ₚ functionId <$> functions built
  ∧ NoDup (handlers built).
Proof. by_evaluation. Qed.

(** X8. The preflight answer of a resource never leaves out a verb the
    resource has: every method declared on a resource of the built stack is
    in the Access-Control-Allow-Methods list of that resource. *)
Theorem declared_verbs_advertised (h : IResource) (verb : string) :
  verb ∈ verbsOf built h → verb ∈ advertisedVerbs built h.
Proof.
  assert (Hall : map_Forall
            (λ h r, Forall (λ v, v ∈ advertisedVerbs built h)
                           (httpMethod <$> r.(methods)))
            (resources built)) by by_evaluation.
  unfold verbsOf. destruct (resources built !! h) as [r|] eqn:Hl.
  - intros Hv. by apply (proj1 (Forall_forall _ _) (Hall h r Hl) verb).
  - intros Hv. exfalso. revert Hv. apply not_elem_of_nil.
Qed.

(** X9. The resources of the built stack form the chain /, /items,
    /items/{id}: every resource but the root is under a resource that
    exists, at the parent's path extended by its own path part; /items is
    under the root and /items/{id} is under /items. *)
Theorem route_tree_well_rooted :
  map_Forall (wellRooted built) (resources built)
  ∧ dom (resources built)
    = {[ ("itemsApi", "/"); ("itemsApi", "/items"); ("itemsApi", "/items/{id}") ]}
  ∧ parentResource <$> resources built !! ("itemsApi", "/items")
    = Some (Some ("itemsApi", "/"))
  ∧ parentResource <$> resources built !! ("itemsApi", "/items/{id}")
    = Some (Some ("itemsApi", "/items"))
  ∧ root <$> apis built = [("itemsApi", "/")].
Proof. by_evaluation. Qed.

End BuiltMore.

(* ===================================================================== *)
(** * The properties above, on the program's own build *)
(* ===================================================================== *)

Lemma addCorsOptions_frame_witness :
  let s' := after (addCorsOptions notesNode) exampleNotesStack in
  resources exampleNotesStack !! notesNode = Some notesResource
  ∧ outcome (addCorsOptions notesNode) exampleNotesStack = inr tt
  ∧ resources s' !! notesNode
    = Some {| pathPart := "notes"; parentResource := Some singleItemNode;
              methods :=
                [ {| httpMethod := "GET";
                     integration := LambdaIntegration "getOneItemFunction";
                     options := methodOption |};
                  corsMethod ] |}
  ∧ resources s' !! itemsNode = Some itemsResource
  ∧ functions s' = lambdaOf exampleDir <$> lambdaFiles
  ∧ boundFunction s' notesNode "GET"
    = Some (lambdaOf exampleDir ("getOneItemFunction", "get-one.ts")).
Proof.
  intros s'.
  assert (Hl : resources exampleNotesStack !! notesNode = Some notesResource)
    by by_evaluation.
  assert (Hret : outcome (addCorsOptions notesNode) exampleNotesStack = inr tt)
    by by_evaluation.
  destruct (addCorsOptions_frame exampleNotesStack notesNode notesResource
              Hl Hret)
    as (Hnode & Hothers & _ & _ & Hfun & _ & _ & Hbound).
  split; [exact Hl|]. split; [exact Hret|]. split; [exact Hnode|].
  split.
  { subst s'. rewrite Hothers; by_evaluation. }
  split.
  { subst s'. rewrite Hfun. reflexivity. }
  subst s'. rewrite Hbound; by_evaluation.
Defined.

Lemma addCorsOptions_declares_what_it_answers_witness :
  outcome (addCorsOptions itemsNode) exampleTwoNodeStack = inr tt
  ∧ boundFunction (after (addCorsOptions itemsNode) exampleTwoNodeStack)
                  itemsNode "OPTIONS"
    = None.
Proof.
  split; [by_evaluation|].
  apply (addCorsOptions_declares_what_it_answers exampleTwoNodeStack itemsNode).
  by_evaluation.
Defined.

Lemma addCorsOptions_completes_witness :
  ¬ preflightComplete exampleNotesStack
  ∧ outcome (addCorsOptions notesNode) exampleNotesStack = inr tt
  ∧ preflightComplete (after (addCorsOptions notesNode) exampleNotesStack).
Proof.
  assert (Hret : outcome (addCorsOptions notesNode) exampleNotesStack = inr tt)
    by by_evaluation.
  assert (Hothers : map_Forall
            (λ h' r', h' ≠ notesNode → nodeComplete r' = true)
            (resources exampleNotesStack)) by by_evaluation.
  split; [unfold preflightComplete; by_evaluation|].
  split; [exact Hret|].
  apply (proj2 (addCorsOptions_completes exampleNotesStack notesNode) Hret).
  intros h' r' Hne Hl'. exact (Hothers h' r' Hl' Hne).
Defined.

Lemma entries_in_sibling_lambdas_witness :
  Forall regularSegment ["srv"; "app"] ∧ regularSegment "cdk"
  ∧ lambdaOf exampleDir ("updateItemFunction", "update-one.ts")
    ∈ functions exampleStack
  ∧ ∃ file, file ∈ (snd <$> lambdaFiles)
      ∧ (lambdaOf exampleDir ("updateItemFunction", "update-one.ts"))
          .(functionProps).(entry)
        = Some (["srv"; "app"] ++ ["lambdas"; file]).
Proof.
  assert (H1 : Forall regularSegment ["srv"; "app"])
    by (unfold regularSegment; by_evaluation).
  assert (H2 : regularSegment "cdk") by (unfold regularSegment; by_evaluation).
  assert (H3 : lambdaOf exampleDir ("updateItemFunction", "update-one.ts")
               ∈ functions exampleStack) by by_evaluation.
  split; [exact H1|]. split; [exact H2|]. split; [exact H3|].
  exact (entries_in_sibling_lambdas ["srv"; "app"] "cdk"
           "ApiLambdaCrudDynamoDBExample" _ H1 H2 H3).
Defined.

Lemma declared_verbs_advertised_witness :
  "POST" ∈ verbsOf exampleStack itemsNode
  ∧ "POST" ∈ advertisedVerbs exampleStack itemsNode.
Proof.
  split; [by_evaluation|].
  apply (declared_verbs_advertised exampleDir "ApiLambdaCrudDynamoDBExample").
  by_evaluation.
Defined.
